(** * The Darcy-equation tutorial of PorePy, embedded in Rocq

    The notebook [tutorials/Darcy_equation] is glue code: it builds a grid,
    fills a parameter object, defines three small classes by inheritance
    and hands everything to the library.  The embedding follows the code
    cells one by one.

    - NumPy arrays of rank one are lists of binary64 floats.
    - Python exceptions are the [Raise] branch of [result].
    - A class statement is its attribute dictionary (names as written in
      the source, private names mangled as Python does) together with its
      bases; attribute lookup walks the method resolution order.
    - Objects are values: a class name and an attribute dictionary.  The
      aliasing of the dictionary [d] between a grid-bucket node and the
      problem object stored in it is not represented.
    - Calls into the library made by the top-level cells are recorded in
      a call log, in evaluation order. *)

From Stdlib Require Import Floats QArith Qround Sorted.
From Stdlib Require Import Ascii String.
From stdpp Require Import base strings list gmap.

Set Warnings "-inexact-float,-register-all".
Local Open Scope string_scope.
Local Open Scope Z_scope.

(** ** Exceptions *)

Inductive PyExc :=
  | IndexError
  | AttributeError
  | TypeError
  | RecursionError.

Inductive result (A : Type) :=
  | Ok (a : A)
  | Raise (e : PyExc).
Arguments Ok {A} a.
Arguments Raise {A} e.

Global Instance result_ret : MRet result := fun A a => Ok a.
Global Instance result_bind : MBind result := fun A B k m =>
  match m with
  | Ok a => k a
  | Raise e => Raise e
  end.

(** ** NumPy, as far as the notebook uses it *)

Abbreviation ndarray := (list float).

(** [np.ones(n)] and [np.zeros(n)]. *)
Definition np_ones (n : nat) : ndarray := replicate n 1%float.
Definition np_zeros (n : nat) : ndarray := replicate n 0%float.

(** [k * a] for a scalar [k]: elementwise binary64 product. *)
Definition scalar_mul (k : float) (a : ndarray) : ndarray :=
  map (PrimFloat.mul k) a.

(** [a[i] = x] for an integer index: negative indices count from the end,
    anything outside [-len, len) raises [IndexError]. *)
Definition setitem (a : ndarray) (i : Z) (x : float) : result ndarray :=
  let n := Z.of_nat (length a) in
  if bool_decide (0 ≤ i < n) then Ok (<[Z.to_nat i := x]> a)
  else if bool_decide (- n ≤ i < 0) then Ok (<[Z.to_nat (i + n) := x]> a)
  else Raise IndexError.

(** [np.argwhere(mask)] on a rank-one boolean array: one row [[i]] per
    true entry, in increasing order. *)
Fixpoint argwhere_from (i : nat) (mask : list bool) : list (list nat) :=
  match mask with
  | [] => []
  | b :: mask' =>
      (if b then [[i]] else []) ++ argwhere_from (S i) mask'
  end.
Definition np_argwhere (mask : list bool) : list (list nat) :=
  argwhere_from 0 mask.

(** [np.ravel]: flatten row by row. *)
Definition np_ravel (a : list (list nat)) : list nat := concat a.

(** ** Python built-ins *)

(** [n / 2] is true division; for an integer below 2^53 in magnitude the
    binary64 quotient is exact, so it is kept as a rational. *)
Definition truediv (n d : Z) : Q :=
  match d with
  | Zpos p => n # p
  | Zneg p => (- n) # p
  | Z0 => 0 # 1
  end.

(** [round(x)] with one argument: nearest integer, ties to even. *)
Definition round (x : Q) : Z :=
  let f := Qfloor x in
  match Qcompare (x - inject_Z f) (1 # 2) with
  | Lt => f
  | Gt => f + 1
  | Eq => if Z.even f then f else f + 1
  end.

(** [[s] * n] for a one-element list. *)
Definition list_repeat_str (s : string) (n : nat) : list string := replicate n s.

(** ** Grids *)

(** Modelled from the spec: [FaceTag] comes from [porepy.grids.grid],
    library code outside the tutorial; these are the two tags the
    notebook asks for. *)
Inductive FaceTag := BOUNDARY | DOMAIN_BOUNDARY.

Global Instance FaceTag_eq_dec : EqDecision FaceTag.
Proof. solve_decision. Defined.

(** Modelled from the spec: the grid class is library code outside the
    tutorial.  Of the spec's single-dimension grid (cells, faces, nodes,
    connectivity, geometric quantities) the record keeps what the
    notebook reads: [dim], [num_cells], the tags of each face, and
    whether [compute_geometry] has run.  The geometric arrays themselves
    are floating-point library data and are not represented. *)
Record Grid := mkGrid {
  dim : nat;
  num_cells : nat;
  face_tags : list (list FaceTag);
  geometry : bool
}.

(** Modelled from the spec: [g.has_face_tag(tag)] is a library method;
    it answers with a boolean mask over the faces, which is how the
    notebook uses it under [np.argwhere]. *)
Definition has_face_tag (g : Grid) (t : FaceTag) : list bool :=
  map (fun ts => bool_decide (t ∈ ts)) (face_tags g).

(** Modelled from the spec: [g.compute_geometry()] is a library method;
    it computes the geometric quantities from the raw coordinates and
    stores them on the grid.  Only the fact that it has run is kept. *)
Definition compute_geometry (g : Grid) : Grid :=
  {| dim := dim g; num_cells := num_cells g;
     face_tags := face_tags g; geometry := true |}.

(** ** Library objects built by the notebook *)

(** Modelled from the spec: [bc.BoundaryCondition(g, faces, cond)] is a
    library constructor for the spec's boundary condition assignment; the
    object keeps its three arguments. *)
Record BoundaryCondition := mkBC {
  cond_grid : Grid;
  cond_faces : list nat;
  cond_labels : list string
}.

(** Modelled from the spec: reading of a boundary condition assignment.
    Face [i] is a Dirichlet face when it is listed with the label
    ['dir']. *)
Definition is_dir (b : BoundaryCondition) (i : nat) : bool :=
  existsb (fun fc => bool_decide (fc.1 = i) && bool_decide (fc.2 = "dir"))
          (zip (cond_faces b) (cond_labels b)).

(** Modelled from the spec: [tensor.SecondOrder(dim, kxx)] is a library
    constructor for the spec's permeability tensor; the object keeps its
    arguments. *)
Record SecondOrder := mkSecondOrder {
  so_dim : Z;
  so_kxx : ndarray
}.

(** Modelled from the spec: the discretization objects are library code
    outside the tutorial.  [Tpfa] is the driver's default, [MpfaMixDim]
    is what [mpfa.MpfaMixDim()] builds. *)
Inductive FluxDisc := Tpfa | MpfaMixDim.

(** The spec's two flux approximations. *)
Inductive Scheme := TwoPoint | MultiPoint.

Definition scheme (d : FluxDisc) : Scheme :=
  match d with
  | Tpfa => TwoPoint
  | MpfaMixDim => MultiPoint
  end.

(** ** The parameter container *)

(** Modelled from the spec: [data.Parameters] is library code outside the
    tutorial.  The spec describes it as per-grid storage for the
    permeability tensor, the aperture, the source term and the boundary
    condition assignment, keyed by a problem-physics label; each of the
    four is a finite map from labels. *)
Record Parameters := mkParameters {
  par_grid : Grid;
  par_tensor : gmap string SecondOrder;
  par_aperture : gmap string ndarray;
  par_source : gmap string ndarray;
  par_bc : gmap string BoundaryCondition
}.

(** Modelled from the spec: [data.Parameters(g)], the empty container
    of a grid. *)
Definition Parameters_new (g : Grid) : Parameters :=
  {| par_grid := g; par_tensor := ∅; par_aperture := ∅;
     par_source := ∅; par_bc := ∅ |}.

(** Modelled from the spec: the setters store a parameter under the
    physics label, the getters read it back. *)
Definition set_tensor (physics : string) (t : SecondOrder) (p : Parameters) :=
  {| par_grid := par_grid p; par_tensor := <[physics := t]> (par_tensor p);
     par_aperture := par_aperture p; par_source := par_source p;
     par_bc := par_bc p |}.

Definition set_aperture (physics : string) (a : ndarray) (p : Parameters) :=
  {| par_grid := par_grid p; par_tensor := par_tensor p;
     par_aperture := <[physics := a]> (par_aperture p);
     par_source := par_source p; par_bc := par_bc p |}.

Definition set_source (physics : string) (s : ndarray) (p : Parameters) :=
  {| par_grid := par_grid p; par_tensor := par_tensor p;
     par_aperture := par_aperture p;
     par_source := <[physics := s]> (par_source p); par_bc := par_bc p |}.

Definition set_bc (physics : string) (b : BoundaryCondition) (p : Parameters) :=
  {| par_grid := par_grid p; par_tensor := par_tensor p;
     par_aperture := par_aperture p; par_source := par_source p;
     par_bc := <[physics := b]> (par_bc p) |}.

Definition get_tensor (physics : string) (p : Parameters) := par_tensor p !! physics.
Definition get_aperture (physics : string) (p : Parameters) := par_aperture p !! physics.
Definition get_source (physics : string) (p : Parameters) := par_source p !! physics.
Definition get_bc (physics : string) (p : Parameters) := par_bc p !! physics.

(** ** Python values and classes *)

Inductive ClassName :=
  | EllipticData | MatrixDomain | FractureDomain | Elliptic | DarcyMPFA.

Global Instance ClassName_eq_dec : EqDecision ClassName.
Proof. solve_decision. Defined.

(** [VLib entry args] stands for a result of the library that the
    tutorial only passes on: the entry point and what it was called with. *)
Inductive Value :=
  | VNone
  | VArray (a : ndarray)
  | VGrid (g : Grid)
  | VBC (b : BoundaryCondition)
  | VTensor (t : SecondOrder)
  | VDisc (d : FluxDisc)
  | VParameters (p : Parameters)
  | VDict (m : gmap string Value)
  | VBucket (nodes : list (Grid * gmap string Value))
  | VObj (c : ClassName) (attrs : gmap string Value)
  | VLib (entry : string) (args : list Value).

Record Instance := mkInstance {
  ob_class : ClassName;
  ob_attrs : gmap string Value
}.

Definition getattr (self : Instance) (name : string) : result Value :=
  match ob_attrs self !! name with
  | Some v => Ok v
  | None => Raise AttributeError
  end.

Definition setattr (self : Instance) (name : string) (v : Value) : Instance :=
  {| ob_class := ob_class self; ob_attrs := <[name := v]> (ob_attrs self) |}.

(** [x.num_cells] on a value. *)
Definition num_cells_of (v : Value) : result nat :=
  match v with
  | VGrid g => Ok (num_cells g)
  | _ => Raise AttributeError
  end.

(** [x.has_face_tag(tag)] on a value. *)
Definition has_face_tag_of (v : Value) (t : FaceTag) : result (list bool) :=
  match v with
  | VGrid g => Ok (has_face_tag g t)
  | _ => Raise AttributeError
  end.

(** [bc.BoundaryCondition(x, faces, cond)] on a value. *)
Definition BoundaryCondition_of (v : Value) (faces : list nat)
    (cond : list string) : result BoundaryCondition :=
  match v with
  | VGrid g => Ok (mkBC g faces cond)
  | _ => Raise TypeError
  end.

(** A method call [self.name(args)] from inside a method body: returns
    the value and the (possibly updated) object. *)
Definition Dispatch : Type :=
  Instance → string → list Value → result (Value * Instance).

(** *** Function objects: one per [def] *)

Inductive Func :=
  | fn_EllipticData_init
  | fn_EllipticData_grid
  | fn_EllipticData_bc
  | fn_EllipticData_permeability
  | fn_EllipticData_source
  | fn_EllipticData_aperture
  | fn_MatrixDomain_init
  | fn_MatrixDomain_bc
  | fn_FractureDomain_init
  | fn_FractureDomain_permeability
  | fn_FractureDomain_source
  | fn_FractureDomain_aperture
  | fn_Elliptic_init
  | fn_Elliptic_flux_disc
  | fn_Elliptic_solve
  | fn_DarcyMPFA_init
  | fn_DarcyMPFA_flux_disc.

Global Instance Func_eq_dec : EqDecision Func.
Proof. solve_decision. Defined.

(** *** Class statements *)

Definition class_name (c : ClassName) : string :=
  match c with
  | EllipticData => "EllipticData"
  | MatrixDomain => "MatrixDomain"
  | FractureDomain => "FractureDomain"
  | Elliptic => "Elliptic"
  | DarcyMPFA => "DarcyMPFA"
  end.

(** The base named in the class header ([object] is left out). *)
Definition base (c : ClassName) : option ClassName :=
  match c with
  | EllipticData => None
  | MatrixDomain => Some EllipticData
  | FractureDomain => Some MatrixDomain
  | Elliptic => None
  | DarcyMPFA => Some Elliptic
  end.

(** The [def]s of each class body, under the names written in the source.
    For the two library classes these are the methods the tutorial calls,
    overrides or names in its text. *)
Definition class_body (c : ClassName) : list (string * Func) :=
  match c with
  | EllipticData =>
      [("__init__", fn_EllipticData_init);
       ("grid", fn_EllipticData_grid);
       ("bc", fn_EllipticData_bc);
       ("permeability", fn_EllipticData_permeability);
       ("source", fn_EllipticData_source);
       ("aperture", fn_EllipticData_aperture)]
  | MatrixDomain =>
      [("__init__", fn_MatrixDomain_init);
       ("bc", fn_MatrixDomain_bc)]
  | FractureDomain =>
      [("__init", fn_FractureDomain_init);
       ("permeability", fn_FractureDomain_permeability);
       ("source", fn_FractureDomain_source);
       ("aperture", fn_FractureDomain_aperture)]
  | Elliptic =>
      [("__init__", fn_Elliptic_init);
       ("flux_disc", fn_Elliptic_flux_disc);
       ("solve", fn_Elliptic_solve)]
  | DarcyMPFA =>
      [("__init__", fn_DarcyMPFA_init);
       ("flux_disc", fn_DarcyMPFA_flux_disc)]
  end.

(** Private name mangling: inside a class body an identifier that starts
    with two underscores and does not end with two underscores is stored
    as [_Class__ident]. *)
Definition ends_with (suf s : string) : bool :=
  let n := String.length s in
  let m := String.length suf in
  (m <=? n)%nat && String.eqb (String.substring (n - m) m s) suf.

Fixpoint lstrip_underscore (s : string) : string :=
  match s with
  | String "_"%char s' => lstrip_underscore s'
  | _ => s
  end.

Definition mangle (cls ident : string) : string :=
  if String.prefix "__" ident && negb (ends_with "__" ident)
  then match lstrip_underscore cls with
       | EmptyString => ident
       | cls' => "_" +:+ cls' +:+ ident
       end
  else ident.

(** The function-valued entries of the class dictionary after the class
    statement has run (no body above defines a name twice).  The entries
    the class statement adds by itself ([__module__], [__qualname__],
    [__doc__]) are not functions and are not represented: of the names
    that begin with two underscores only the [def]s can be looked up
    here. *)
Definition class_dict (c : ClassName) : gmap string Func :=
  list_to_map (map (fun nf => (mangle (class_name c) nf.1, nf.2)) (class_body c)).

(** Method resolution order; with single inheritance it is the chain of
    bases. *)
Fixpoint mro_from (fuel : nat) (c : ClassName) : list ClassName :=
  c :: match fuel, base c with
       | S k, Some p => mro_from k p
       | _, _ => []
       end.
Definition mro (c : ClassName) : list ClassName := mro_from 5 c.

(** The function a method call [self.name(...)] reaches: the first
    dictionary along the MRO of the class of [self] that has the name. *)
Fixpoint lookup_along (cs : list ClassName) (name : string) : option Func :=
  match cs with
  | [] => None
  | c :: cs' =>
      match class_dict c !! name with
      | Some f => Some f
      | None => lookup_along cs' name
      end
  end.
Definition class_getattr (c : ClassName) (name : string) : option Func :=
  lookup_along (mro c) name.

(** *** Method bodies *)

(** [elliptic.EllipticData] is library code outside the tutorial; its
    methods are modelled as far as the tutorial relies on them. *)
Module EllipticData.

(** Modelled from the spec: the constructor of the per-grid data class;
    it keeps the grid and the data dictionary it is given.  Whatever else
    the library's constructor does with them is not represented. *)
Definition __init__ (self : Instance) (args : list Value)
    : result (Value * Instance) :=
  match args with
  | [g; d] => Ok (VNone, setattr (setattr self "_g" g) "_data" d)
  | _ => Raise TypeError
  end.

(** Modelled from the spec: [grid()] returns the grid the object was
    built for, as the tutorial's own methods rely on. *)
Definition grid (self : Instance) (args : list Value)
    : result (Value * Instance) :=
  match args with
  | [] => g ← getattr self "_g"; Ok (g, self)
  | _ => Raise TypeError
  end.

(** Modelled from the spec: the default [bc()], which the tutorial's text
    describes as Neumann everywhere: no face is listed as Dirichlet. *)
Definition bc (call : Dispatch) (self : Instance) (args : list Value)
    : result (Value * Instance) :=
  match args with
  | [] =>
      '(g, self) ← call self "grid" [];
      b ← BoundaryCondition_of g [] [];
      Ok (VBC b, self)
  | _ => Raise TypeError
  end.

(** Modelled from the spec: the default [permeability()], [source()]
    and [aperture()]; the tutorial does not show their values, so the
    result is named, not computed. *)
Definition default (entry : string) (self : Instance) (args : list Value)
    : result (Value * Instance) :=
  match args with
  | [] => Ok (VLib entry [VObj (ob_class self) (ob_attrs self)], self)
  | _ => Raise TypeError
  end.

End EllipticData.

(** Cell 6 of the notebook. *)
Module MatrixDomain.

(** [def __init__(self, g, d): elliptic.EllipticData.__init__(self, g, d)] *)
Definition __init__ (self : Instance) (args : list Value)
    : result (Value * Instance) :=
  match args with
  | [g; d] => EllipticData.__init__ self [g; d]
  | _ => Raise TypeError
  end.

(** [def bc(self)]: the faces tagged [DOMAIN_BOUNDARY], each with ['dir']. *)
Definition bc (call : Dispatch) (self : Instance) (args : list Value)
    : result (Value * Instance) :=
  match args with
  | [] =>
      '(g, self) ← call self "grid" [];
      mask ← has_face_tag_of g DOMAIN_BOUNDARY;
      let dir_bound := np_ravel (np_argwhere mask) in
      '(g', self) ← call self "grid" [];
      b ← BoundaryCondition_of g' dir_bound
            (list_repeat_str "dir" (length dir_bound));
      Ok (VBC b, self)
  | _ => Raise TypeError
  end.

End MatrixDomain.

Module FractureDomain.

(** [def __init(self, g, d): MatrixDomain.__init__(self, g, d)] *)
Definition __init (self : Instance) (args : list Value)
    : result (Value * Instance) :=
  match args with
  | [g; d] => MatrixDomain.__init__ self [g; d]
  | _ => Raise TypeError
  end.

(** [kxx = 100 * np.ones(n); return tensor.SecondOrder(2, kxx)] *)
Definition permeability (call : Dispatch) (self : Instance)
    (args : list Value) : result (Value * Instance) :=
  match args with
  | [] =>
      '(g, self) ← call self "grid" [];
      n ← num_cells_of g;
      let kxx := scalar_mul 100%float (np_ones n) in
      Ok (VTensor (mkSecondOrder 2 kxx), self)
  | _ => Raise TypeError
  end.

(** [val = np.ones(n); val[round(n/2)] = 1; return val] *)
Definition source (call : Dispatch) (self : Instance) (args : list Value)
    : result (Value * Instance) :=
  match args with
  | [] =>
      '(g, self) ← call self "grid" [];
      n ← num_cells_of g;
      let val := np_ones n in
      '(g', self) ← call self "grid" [];
      n' ← num_cells_of g';
      val ← setitem val (round (truediv (Z.of_nat n') 2)) 1%float;
      Ok (VArray val, self)
  | _ => Raise TypeError
  end.

(** [val = 0.01 * np.ones(n); return val] *)
Definition aperture (call : Dispatch) (self : Instance) (args : list Value)
    : result (Value * Instance) :=
  match args with
  | [] =>
      '(g, self) ← call self "grid" [];
      n ← num_cells_of g;
      let val := scalar_mul 0.01%float (np_ones n) in
      Ok (VArray val, self)
  | _ => Raise TypeError
  end.

End FractureDomain.

(** [elliptic.Elliptic] is library code outside the tutorial; its
    methods are modelled as far as the tutorial relies on them. *)
Module Elliptic.

(** Modelled from the spec: the constructor of the elliptic problem
    driver; it keeps the grid (or grid bucket) and the optional data
    dictionary.  Whatever else the library's constructor does with them
    is not represented. *)
Definition __init__ (self : Instance) (args : list Value)
    : result (Value * Instance) :=
  match args with
  | [gb] => Ok (VNone, setattr (setattr self "_gb" gb) "_data" VNone)
  | [gb; d] => Ok (VNone, setattr (setattr self "_gb" gb) "_data" d)
  | _ => Raise TypeError
  end.

(** Modelled from the spec: the chosen flux discretization; by default
    the two-point scheme, as the tutorial's text says. *)
Definition flux_disc (self : Instance) (args : list Value)
    : result (Value * Instance) :=
  match args with
  | [] => Ok (VDisc Tpfa, self)
  | _ => Raise TypeError
  end.

(** Modelled from the spec: [solve()] assembles the linear system over
    the grid (or grid bucket) with the chosen flux discretization and
    solves it for the pressure.  The driver takes the discretization from
    [self.flux_disc()], the function the tutorial's text says to overload.
    The solution is named by what it is computed from (grid, data,
    discretization), not computed. *)
Definition solve (call : Dispatch) (self : Instance) (args : list Value)
    : result (Value * Instance) :=
  match args with
  | [] =>
      '(disc, self) ← call self "flux_disc" [];
      gb ← getattr self "_gb";
      data ← getattr self "_data";
      Ok (VLib "Elliptic.solve" [gb; data; disc], self)
  | _ => Raise TypeError
  end.

End Elliptic.

(** Cell 8 of the notebook. *)
Module DarcyMPFA.

(** [def __init__(self, gb): elliptic.Elliptic.__init__(self, gb)] *)
Definition __init__ (self : Instance) (args : list Value)
    : result (Value * Instance) :=
  match args with
  | [gb] => Elliptic.__init__ self [gb]
  | _ => Raise TypeError
  end.

(** [def flux_disc(self): return mpfa.MpfaMixDim()] *)
Definition flux_disc (self : Instance) (args : list Value)
    : result (Value * Instance) :=
  match args with
  | [] => Ok (VDisc MpfaMixDim, self)
  | _ => Raise TypeError
  end.

End DarcyMPFA.

(** *** Calling *)

(** The body behind each function object; [call] serves the method calls
    the body makes on [self]. *)
Definition exec (call : Dispatch) (f : Func) : Instance → list Value →
    result (Value * Instance) :=
  match f with
  | fn_EllipticData_init => EllipticData.__init__
  | fn_EllipticData_grid => EllipticData.grid
  | fn_EllipticData_bc => EllipticData.bc call
  | fn_EllipticData_permeability => EllipticData.default "EllipticData.permeability"
  | fn_EllipticData_source => EllipticData.default "EllipticData.source"
  | fn_EllipticData_aperture => EllipticData.default "EllipticData.aperture"
  | fn_MatrixDomain_init => MatrixDomain.__init__
  | fn_MatrixDomain_bc => MatrixDomain.bc call
  | fn_FractureDomain_init => FractureDomain.__init
  | fn_FractureDomain_permeability => FractureDomain.permeability call
  | fn_FractureDomain_source => FractureDomain.source call
  | fn_FractureDomain_aperture => FractureDomain.aperture call
  | fn_Elliptic_init => Elliptic.__init__
  | fn_Elliptic_flux_disc => Elliptic.flux_disc
  | fn_Elliptic_solve => Elliptic.solve call
  | fn_DarcyMPFA_init => DarcyMPFA.__init__
  | fn_DarcyMPFA_flux_disc => DarcyMPFA.flux_disc
  end.

(** [self.name(args)]: look the name up on the class of [self] and run
    the function found.  Nested calls use up the interpreter's recursion
    depth. *)
Fixpoint call (depth : nat) (self : Instance) (name : string)
    (args : list Value) : result (Value * Instance) :=
  match depth with
  | O => Raise RecursionError
  | S k =>
      match class_getattr (ob_class self) name with
      | Some f => exec (call k) f self args
      | None => Raise AttributeError
      end
  end.

(** [sys.getrecursionlimit()] of a fresh interpreter. *)
Definition recursion_limit : nat := 1000.

Definition invoke : Dispatch := call recursion_limit.
Arguments call : simpl never.
Arguments invoke : simpl never.

(** A fresh object of class [c] initialised by the function [init]. *)
Definition construct_with
    (init : Instance → list Value → result (Value * Instance))
    (c : ClassName) (args : list Value) : result Instance :=
  '(_, self) ← init (mkInstance c ∅) args;
  Ok self.

(** [C(args)]: a fresh object of class [C], initialised by whatever
    [__init__] resolves to on [C]. *)
Definition construct (c : ClassName) (args : list Value) : result Instance :=
  '(_, self) ← invoke (mkInstance c ∅) "__init__" args;
  Ok self.

(** The value returned by [C(args).name()]. *)
Definition method_result (c : ClassName) (args : list Value) (name : string)
    : result Value :=
  self ← construct c args;
  '(v, _) ← invoke self name [];
  Ok v.

(** The class [EllipticData] and its subclasses in the notebook. *)
Definition data_class (c : ClassName) : Prop :=
  c = EllipticData ∨ c = MatrixDomain ∨ c = FractureDomain.

(** The attributes of [MatrixDomain(g, d)] and [FractureDomain(g, d)]. *)
Definition data_attrs (g d : Value) : gmap string Value :=
  <["_data" := d]> (<["_g" := g]> ∅).

(** What [MatrixDomain.bc] builds for a grid. *)
Definition dirichlet_on_domain_boundary (g : Grid) : BoundaryCondition :=
  let dir_bound := np_ravel (np_argwhere (has_face_tag g DOMAIN_BOUNDARY)) in
  mkBC g dir_bound (list_repeat_str "dir" (length dir_bound)).

(** Modelled from the spec: [gb.add_node_props(keys)] is a library
    method on the grid bucket; every node dictionary gets each key, bound
    to [None].  A bucket is read here as its list of nodes [(g, d)], which
    is what the loop of [assign_darcy_data] iterates over. *)
Definition add_node_props (keys : list string)
    (nodes : list (Grid * gmap string Value))
    : list (Grid * gmap string Value) :=
  map (fun gd => (gd.1, foldr (fun k d => <[k := VNone]> d) gd.2 keys)) nodes.

(** The loop body of [assign_darcy_data] for one node [(g, d)]. *)
Definition assign_node (gd : Grid * gmap string Value)
    : result (Grid * gmap string Value) :=
  let '(g, d) := gd in
  if bool_decide (dim g = 2%nat) then
    o ← construct MatrixDomain [VGrid g; VDict d];
    Ok (g, <["problem" := VObj (ob_class o) (ob_attrs o)]> d)
  else
    o ← construct FractureDomain [VGrid g; VDict d];
    Ok (g, <["problem" := VObj (ob_class o) (ob_attrs o)]> d).

Fixpoint for_nodes (nodes : list (Grid * gmap string Value))
    : result (list (Grid * gmap string Value)) :=
  match nodes with
  | [] => Ok []
  | gd :: rest =>
      gd' ← assign_node gd;
      rest' ← for_nodes rest;
      Ok (gd' :: rest')
  end.

(** [def assign_darcy_data(gb)] of cell 6. *)
Definition assign_darcy_data (gb : list (Grid * gmap string Value))
    : result (list (Grid * gmap string Value)) :=
  for_nodes (add_node_props ["problem"] gb).

(** The class [assign_darcy_data] picks for a grid: the test [g.dim == 2]
    of its loop body. *)
Definition problem_class (g : Grid) : ClassName :=
  if bool_decide (dim g = 2%nat) then MatrixDomain else FractureDomain.


(** ** The top-level cells of the single-grid example *)

(** The call expressions of cells 2 to 4. *)
Inductive Call :=
  | call_CartGrid (nx : list Z)
  | call_compute_geometry
  | call_Parameters
  | call_has_face_tag (t : FaceTag)
  | call_np_argwhere
  | call_np_ravel
  | call_BoundaryCondition
  | call_np_zeros (n : nat)
  | call_set_bc (physics : string)
  | call_set_source (physics : string)
  | call_Elliptic
  | call_solve
  | call_plot_grid.

(** A cell runs against the log of the calls made so far. *)
Definition Script (A : Type) : Type := list Call → result (A * list Call).

Definition ret_s {A} (a : A) : Script A := fun log => Ok (a, log).

Definition bind_s {A B} (m : Script A) (k : A → Script B) : Script B :=
  fun log =>
    match m log with
    | Ok (a, log') => k a log'
    | Raise e => Raise e
    end.

(** A library call: logged, then answered by the model of the callee. *)
Definition lib {A} (c : Call) (v : A) : Script A :=
  fun log => Ok (v, (log ++ [c])%list).

(** A step that may raise and makes no logged call of its own. *)
Definition lift {A} (r : result A) : Script A :=
  fun log =>
    match r with
    | Ok a => Ok (a, log)
    | Raise e => Raise e
    end.

Declare Scope script_scope.
Delimit Scope script_scope with script.
Notation "x <~ m ;; k" := (bind_s m (fun x => k))
  (at level 100, m at next level, right associativity) : script_scope.

(** The variables cell 3 leaves in the namespace. *)
Record Cell3 := mkCell3 {
  param : Parameters;
  dir_bound : list nat;
  bc_cond : BoundaryCondition;
  src : ndarray;
  d : gmap string Value
}.

Section SingleGrid.

(** The face tags of a Cartesian grid follow the library's face numbering,
    which the tutorial does not show: they are a parameter. *)
Variable cart_face_tags : list Z → list (list FaceTag).

(** Modelled from the spec: [CartGrid] is library code outside the
    tutorial.  [CartGrid(nx)] is the Cartesian grid with [nx[i]] cells in
    direction [i]: its dimension is [len(nx)], its cell count the product
    of the entries. *)
Definition CartGrid (nx : list Z) : Grid :=
  {| dim := length nx;
     num_cells := Z.to_nat (foldr Z.mul 1 nx);
     face_tags := cart_face_tags nx;
     geometry := false |}.

(** Cell 2. *)
Definition cell_2 : Script Grid :=
  (g <~ lib (call_CartGrid [11; 11]) (CartGrid [11; 11]) ;;
   g <~ lib call_compute_geometry (compute_geometry g) ;;
   ret_s g)%script.

(** Cell 3. *)
Definition cell_3 (g : Grid) : Script Cell3 :=
  (param <~ lib call_Parameters (Parameters_new g) ;;
   mask <~ lib (call_has_face_tag BOUNDARY) (has_face_tag g BOUNDARY) ;;
   rows <~ lib call_np_argwhere (np_argwhere mask) ;;
   dir_bound <~ lib call_np_ravel (np_ravel rows) ;;
   bc_cond <~ lib call_BoundaryCondition
     (mkBC g dir_bound (list_repeat_str "dir" (length dir_bound))) ;;
   src <~ lib (call_np_zeros (num_cells g)) (np_zeros (num_cells g)) ;;
   src <~ lift (setitem src 60 1%float) ;;
   param <~ lib (call_set_bc "flow") (set_bc "flow" bc_cond param) ;;
   param <~ lib (call_set_source "flow") (set_source "flow" src param) ;;
   ret_s (mkCell3 param dir_bound bc_cond src {["param" := VParameters param]}))%script.

(** Cell 4: the pressure [p] is what the library's [solve] returns;
    [plot_grid] draws it and returns nothing. *)
Definition cell_4 (g : Grid) (d : gmap string Value) : Script Value :=
  (problem <~ bind_s (lib call_Elliptic tt)
                 (fun _ => lift (construct Elliptic [VGrid g; VDict d])) ;;
   p <~ bind_s (lib call_solve tt)
           (fun _ => lift (invoke problem "solve" [])) ;;
   _ <~ lib call_plot_grid tt ;;
   ret_s p.1)%script.

(** Cells 2, 3 and 4 in notebook order. *)
Definition single_grid : Script (Grid * Cell3 * Value) :=
  (g <~ cell_2 ;;
   ns <~ cell_3 g ;;
   p <~ cell_4 g (d ns) ;;
   ret_s (g, ns, p))%script.

(** The values cells 2 to 4 leave behind. *)
Definition the_grid : Grid :=
  compute_geometry (CartGrid [11; 11]).

Definition the_dir_bound : list nat :=
  np_ravel (np_argwhere (has_face_tag the_grid BOUNDARY)).

Definition the_bc_cond : BoundaryCondition :=
  mkBC the_grid the_dir_bound
    (list_repeat_str "dir" (length the_dir_bound)).

Definition the_src : ndarray :=
  replicate 60 0%float ++ 1%float :: replicate 60 0%float.

Definition the_param : Parameters :=
  set_source "flow" the_src
    (set_bc "flow" the_bc_cond (Parameters_new the_grid)).

Definition the_namespace : Cell3 :=
  mkCell3 the_param the_dir_bound the_bc_cond the_src
    {["param" := VParameters the_param]}.

Definition the_pressure : Value :=
  VLib "Elliptic.solve"
    [VGrid the_grid; VDict (d the_namespace); VDisc Tpfa].

Definition the_log : list Call :=
  [call_CartGrid [11; 11]; call_compute_geometry;
   call_Parameters; call_has_face_tag BOUNDARY; call_np_argwhere;
   call_np_ravel; call_BoundaryCondition; call_np_zeros 121;
   call_set_bc "flow"; call_set_source "flow";
   call_Elliptic; call_solve;
   call_plot_grid].

End SingleGrid.

(** * Properties *)

(** ** Arrays and rounding *)

Lemma length_np_ones n : length (np_ones n) = n.
Proof. apply length_replicate. Qed.

Lemma length_np_zeros n : length (np_zeros n) = n.
Proof. apply length_replicate. Qed.

Lemma scalar_mul_ones k n :
  scalar_mul k (np_ones n) = replicate n (PrimFloat.mul k 1%float).
Proof.
  unfold scalar_mul, np_ones.
  induction n as [|n IH]; simpl; [reflexivity | by rewrite IH].
Qed.

(** Writing back the value an in-range slot already holds changes
    nothing. *)
Lemma setitem_same (a : ndarray) (i : Z) (x : float) :
  0 ≤ i < Z.of_nat (length a) →
  a !! Z.to_nat i = Some x →
  setitem a i x = Ok a.
Proof.
  intros Hi Hx. unfold setitem.
  rewrite bool_decide_eq_true_2 by exact Hi.
  by rewrite list_insert_id.
Qed.

Lemma setitem_out_of_range (a : ndarray) (i : Z) (x : float) :
  Z.of_nat (length a) ≤ i →
  setitem a i x = Raise IndexError.
Proof.
  intros Hi. unfold setitem.
  rewrite bool_decide_eq_false_2 by lia.
  by rewrite bool_decide_eq_false_2 by lia.
Qed.

(** [round(n / 2)] in integer terms: halves of odd numbers go to the
    even neighbour. *)
Lemma round_half (n : Z) :
  round (truediv n 2) =
    if Z.even n then n `div` 2
    else if Z.even (n `div` 2) then n `div` 2 else n `div` 2 + 1.
Proof.
  unfold round, truediv.
  change (Qfloor (n # 2)) with (n `div` 2).
  set (q := n `div` 2).
  assert (Hn : n = 2 * q + n `mod` 2) by (unfold q; apply Z.div_mod; lia).
  assert (Hcmp : ((n # 2) - inject_Z q ?= 1 # 2)%Q = (n `mod` 2 ?= 1)).
  { unfold Qcompare, Qminus, Qplus, Qopp, inject_Z; simpl.
    destruct (Z.compare_spec (n `mod` 2) 1) as [H|H|H].
    - apply Z.compare_eq_iff. lia.
    - apply Z.compare_lt_iff. lia.
    - apply Z.compare_gt_iff. lia. }
  rewrite Hcmp.
  rewrite Zmod_even.
  destruct (Z.even n); reflexivity.
Qed.

Lemma round_half_bounds (n : Z) :
  1 ≤ n → 0 ≤ round (truediv n 2) < n.
Proof.
  intros Hn. rewrite round_half.
  assert (H2 : n = 2 * (n `div` 2) + n `mod` 2) by (apply Z.div_mod; lia).
  assert (Hm : 0 ≤ n `mod` 2 < 2) by (apply Z.mod_pos_bound; lia).
  destruct (Z.even n) eqn:En.
  - rewrite Zmod_even, En in H2. lia.
  - rewrite Zmod_even, En in H2.
    destruct (Z.even (n `div` 2)) eqn:Eq; [lia|].
    assert (n `div` 2 ≠ 0) by (intros E0; rewrite E0 in Eq; discriminate).
    lia.
Qed.

(** ** Name resolution and calls *)

Lemma call_unfold k self name args :
  call (S k) self name args =
    match class_getattr (ob_class self) name with
    | Some f => exec (call k) f self args
    | None => Raise AttributeError
    end.
Proof. reflexivity. Qed.

Lemma invoke_resolved self name args f :
  class_getattr (ob_class self) name = Some f →
  invoke self name args = exec (call 999) f self args.
Proof.
  intros H. unfold invoke.
  change recursion_limit with (S 999). by rewrite call_unfold, H.
Qed.

Lemma invoke_unresolved self name args :
  class_getattr (ob_class self) name = None →
  invoke self name args = Raise AttributeError.
Proof.
  intros H. unfold invoke.
  change recursion_limit with (S 999). by rewrite call_unfold, H.
Qed.


Lemma grid_resolves c :
  data_class c → class_getattr c "grid" = Some fn_EllipticData_grid.
Proof. intros [->|[->| ->]]; reflexivity. Qed.

Lemma call_grid k c attrs g :
  data_class c →
  attrs !! "_g" = Some g →
  call (S k) (mkInstance c attrs) "grid" [] = Ok (g, mkInstance c attrs).
Proof.
  intros Hc Hg. rewrite call_unfold. simpl ob_class.
  rewrite (grid_resolves c Hc). simpl.
  unfold getattr. simpl. by rewrite Hg.
Qed.


Lemma construct_data c g d :
  c = MatrixDomain ∨ c = FractureDomain →
  construct c [g; d] = Ok (mkInstance c (data_attrs g d)).
Proof. intros [-> | ->]; reflexivity. Qed.

Lemma data_attrs_g g d : data_attrs g d !! "_g" = Some g.
Proof.
  unfold data_attrs. rewrite lookup_insert_ne by discriminate.
  apply lookup_insert_eq.
Qed.

(** ** The fracture parameters *)

(** [aperture()] on any [FractureDomain] object whose grid is [g],
    whatever else the object holds. *)
Lemma aperture_of_object (attrs : gmap string Value) (g : Grid) :
  attrs !! "_g" = Some (VGrid g) →
  invoke (mkInstance FractureDomain attrs) "aperture" []
    = Ok (VArray (replicate (num_cells g) 0.01%float),
          mkInstance FractureDomain attrs).
Proof.
  intros Hg.
  rewrite (invoke_resolved _ _ _ fn_FractureDomain_aperture) by reflexivity.
  cbn [exec]. unfold FractureDomain.aperture.
  rewrite (call_grid _ _ _ (VGrid g)); [|right; by right|exact Hg].
  simpl. by rewrite scalar_mul_ones.
Qed.

(** C7. For every fracture grid [g] (and every data dictionary), the
    object [FractureDomain(g, d)] answers [aperture()] with an array that
    has one entry per cell of [g], each entry equal to 0.01. *)
Theorem aperture_is_one_hundredth_per_cell (g : Grid) (d : Value) :
  method_result FractureDomain [VGrid g; d] "aperture"
    = Ok (VArray (replicate (num_cells g) 0.01%float))
  ∧ length (replicate (num_cells g) 0.01%float) = num_cells g.
Proof.
  split; [|apply length_replicate].
  unfold method_result.
  rewrite construct_data by (by right). simpl.
  by rewrite (aperture_of_object _ g) by apply data_attrs_g.
Qed.

(** The write [val[round(n/2)] = 1] on [np.ones(n)] is in range and puts
    back what is there, as soon as there is a cell. *)
Lemma source_write_is_identity (n : nat) :
  (0 < n)%nat →
  setitem (np_ones n) (round (truediv (Z.of_nat n) 2)) 1%float
    = Ok (np_ones n).
Proof.
  intros Hn.
  pose proof (round_half_bounds (Z.of_nat n) ltac:(lia)) as Hr.
  apply setitem_same.
  - rewrite length_np_ones. exact Hr.
  - unfold np_ones. apply lookup_replicate_2. lia.
Qed.

(** [source()] on any [FractureDomain] object whose grid is [g]. *)
Lemma source_of_object (attrs : gmap string Value) (g : Grid) :
  attrs !! "_g" = Some (VGrid g) →
  invoke (mkInstance FractureDomain attrs) "source" []
    = (val ← setitem (np_ones (num_cells g))
                (round (truediv (Z.of_nat (num_cells g)) 2)) 1%float;
        Ok (VArray val, mkInstance FractureDomain attrs)).
Proof.
  intros Hg.
  rewrite (invoke_resolved _ _ _ fn_FractureDomain_source) by reflexivity.
  cbn [exec]. unfold FractureDomain.source.
  rewrite (call_grid _ _ _ (VGrid g)); [|right; by right|exact Hg].
  simpl.
  rewrite (call_grid _ _ _ (VGrid g)); [|right; by right|exact Hg].
  reflexivity.
Qed.

(** C8, as the code has it. For every fracture grid [g] with at least one
    cell, [FractureDomain(g, d).source()] is the all-ones array with one
    entry per cell: the write at index [round(num_cells/2)] is in range
    and leaves the array as [np.ones] made it. *)
Theorem source_is_all_ones (g : Grid) (d : Value) :
  (0 < num_cells g)%nat →
  method_result FractureDomain [VGrid g; d] "source"
    = Ok (VArray (np_ones (num_cells g)))
  ∧ length (np_ones (num_cells g)) = num_cells g
  ∧ setitem (np_ones (num_cells g))
      (round (truediv (Z.of_nat (num_cells g)) 2)) 1%float
    = Ok (np_ones (num_cells g)).
Proof.
  intros Hn. split; [|split];
    [|apply length_np_ones|by apply source_write_is_identity].
  unfold method_result.
  rewrite construct_data by (by right). simpl.
  rewrite (source_of_object _ g) by apply data_attrs_g.
  by rewrite source_write_is_identity.
Qed.

Lemma source_is_all_ones_witness :
  (0 < num_cells (mkGrid 1 10 [] false))%nat
  ∧ method_result FractureDomain
      [VGrid (mkGrid 1 10 [] false); VDict ∅] "source"
    = Ok (VArray (np_ones 10)).
Proof.
  split; [simpl; lia|].
  apply (source_is_all_ones (mkGrid 1 10 [] false) (VDict ∅)).
  simpl. lia.
Defined.

(** C8, as stated, fails on a fracture grid without cells: [np.ones(0)]
    is empty, [round(0/2)] is 0, and the write at index 0 raises. *)
Lemma source_raises_on_empty_grid :
  method_result FractureDomain
    [VGrid (mkGrid 1 0 [] false); VDict ∅] "source"
    = Raise IndexError
  ∧ method_result FractureDomain
      [VGrid (mkGrid 1 0 [] false); VDict ∅] "source"
    ≠ Ok (VArray (np_ones (num_cells (mkGrid 1 0 [] false)))).
Proof.
  assert (H : method_result FractureDomain
    [VGrid (mkGrid 1 0 [] false); VDict ∅] "source" = Raise IndexError)
    by (vm_compute; reflexivity).
  split; [exact H|]. rewrite H. discriminate.
Qed.

(** ** Boundary conditions *)

Lemma elem_of_argwhere_from (k : nat) (mask : list bool) (i : nat) :
  i ∈ np_ravel (argwhere_from k mask)
  ↔ ∃ j : nat, i = (k + j)%nat ∧ mask !! j = Some true.
Proof.
  revert k. induction mask as [|b mask IH]; intros k.
  - simpl. split; [by intros ?%elem_of_nil | by intros (j & _ & ?)].
  - unfold np_ravel in *. simpl. rewrite concat_app, elem_of_app, IH.
    split.
    + intros [Hb | (j & -> & Hj)].
      * destruct b; simpl in Hb; [|by apply elem_of_nil in Hb].
        apply list_elem_of_singleton in Hb as ->.
        exists 0%nat. split; [lia | reflexivity].
      * exists (S j). split; [lia | exact Hj].
    + intros ([|j] & -> & Hj).
      * simpl in Hj. injection Hj as ->. left. simpl.
        rewrite Nat.add_0_r. apply list_elem_of_singleton. reflexivity.
      * right. exists j. split; [lia | exact Hj].
Qed.

(** [np.ravel(np.argwhere(mask))] lists exactly the true positions. *)
Lemma elem_of_true_positions (mask : list bool) (i : nat) :
  i ∈ np_ravel (np_argwhere mask) ↔ mask !! i = Some true.
Proof.
  unfold np_argwhere. rewrite elem_of_argwhere_from.
  split; [by intros (j & -> & Hj) | intros H; by exists i].
Qed.

(** With the label list [['dir'] * len(faces)], the Dirichlet faces are
    the listed faces. *)
Lemma is_dir_all_dir (g : Grid) (faces : list nat) (i : nat) :
  is_dir (mkBC g faces (list_repeat_str "dir" (length faces))) i = true
  ↔ i ∈ faces.
Proof.
  unfold is_dir, list_repeat_str. simpl.
  induction faces as [|a faces IH]; simpl.
  - split; [discriminate | by intros ?%elem_of_nil].
  - rewrite orb_true_iff, IH, elem_of_cons, andb_true_iff.
    rewrite !bool_decide_eq_true.
    split; [intros [[-> _] | Hi] | intros [-> | Hi]]; auto.
Qed.


Lemma dirichlet_on_domain_boundary_spec (g : Grid) (i : nat) :
  is_dir (dirichlet_on_domain_boundary g) i = true
  ↔ has_face_tag g DOMAIN_BOUNDARY !! i = Some true.
Proof.
  unfold dirichlet_on_domain_boundary.
  by rewrite is_dir_all_dir, elem_of_true_positions.
Qed.

(** [bc()] on any [MatrixDomain] or [FractureDomain] object whose grid
    is [g]. *)
Lemma bc_of_object c (attrs : gmap string Value) (g : Grid) :
  c = MatrixDomain ∨ c = FractureDomain →
  attrs !! "_g" = Some (VGrid g) →
  invoke (mkInstance c attrs) "bc" []
    = Ok (VBC (dirichlet_on_domain_boundary g), mkInstance c attrs).
Proof.
  intros Hc Hg.
  rewrite (invoke_resolved _ _ _ fn_MatrixDomain_bc)
    by (destruct Hc as [-> | ->]; reflexivity).
  cbn [exec]. unfold MatrixDomain.bc.
  assert (Hd : data_class c) by (destruct Hc; [right; by left|right; by right]).
  rewrite (call_grid _ _ _ (VGrid g)); [|exact Hd|exact Hg].
  simpl.
  rewrite (call_grid _ _ _ (VGrid g)); [|exact Hd|exact Hg].
  reflexivity.
Qed.

Lemma bc_of_data_class c (g : Grid) (d : Value) :
  c = MatrixDomain ∨ c = FractureDomain →
  method_result c [VGrid g; d] "bc"
    = Ok (VBC (dirichlet_on_domain_boundary g)).
Proof.
  intros Hc. unfold method_result.
  rewrite construct_data by exact Hc. simpl.
  by rewrite (bc_of_object c _ g) by (exact Hc || apply data_attrs_g).
Qed.

(** C9. [FractureDomain] has no [__init__] of its own: the [def] spelled
    [__init] is stored under the mangled name [_FractureDomain__init],
    so the constructor name resolves, as for [MatrixDomain], to
    [MatrixDomain.__init__].  For every grid [g] and dictionary [d],
    building [FractureDomain(g, d)] and building [MatrixDomain(g, d)]
    both run [MatrixDomain.__init__] on the fresh object and leave it
    with the same attributes.  [bc] on [FractureDomain] is the inherited
    [MatrixDomain.bc], and on both classes it returns a boundary
    condition on [g] whose Dirichlet faces are the faces tagged
    [DOMAIN_BOUNDARY]. *)
Theorem FractureDomain_initialises_as_MatrixDomain
    (g : Grid) (d : gmap string Value) :
  class_getattr FractureDomain "__init__" = Some fn_MatrixDomain_init
  ∧ class_getattr MatrixDomain "__init__" = Some fn_MatrixDomain_init
  ∧ class_dict FractureDomain !! "__init__" = None
  ∧ class_dict FractureDomain !! "_FractureDomain__init"
      = Some fn_FractureDomain_init
  ∧ construct FractureDomain [VGrid g; VDict d]
      = construct_with MatrixDomain.__init__ FractureDomain [VGrid g; VDict d]
  ∧ construct MatrixDomain [VGrid g; VDict d]
      = construct_with MatrixDomain.__init__ MatrixDomain [VGrid g; VDict d]
  ∧ (∃ attrs,
       construct FractureDomain [VGrid g; VDict d]
         = Ok (mkInstance FractureDomain attrs)
       ∧ construct MatrixDomain [VGrid g; VDict d]
         = Ok (mkInstance MatrixDomain attrs))
  ∧ class_getattr FractureDomain "bc" = Some fn_MatrixDomain_bc
  ∧ (∃ b,
       method_result FractureDomain [VGrid g; VDict d] "bc" = Ok (VBC b)
       ∧ method_result MatrixDomain [VGrid g; VDict d] "bc" = Ok (VBC b)
       ∧ cond_grid b = g
       ∧ ∀ i : nat, is_dir b i = true
                    ↔ has_face_tag g DOMAIN_BOUNDARY !! i = Some true).
Proof.
  repeat split; try reflexivity.
  - exists (data_attrs (VGrid g) (VDict d)).
    split; apply construct_data; [by right | by left].
  - exists (dirichlet_on_domain_boundary g).
    split; [apply bc_of_data_class; by right|].
    split; [apply bc_of_data_class; by left|].
    split; [reflexivity|].
    apply dirichlet_on_domain_boundary_spec.
Qed.

(** ** The flux discretization *)

Lemma class_getattr_DarcyMPFA (name : string) :
  class_getattr DarcyMPFA name =
    match class_dict DarcyMPFA !! name with
    | Some f => Some f
    | None => class_getattr Elliptic name
    end.
Proof.
  unfold class_getattr.
  change (mro DarcyMPFA) with [DarcyMPFA; Elliptic].
  change (mro Elliptic) with [Elliptic].
  reflexivity.
Qed.

Lemma class_dict_DarcyMPFA :
  class_dict DarcyMPFA =
    <["__init__" := fn_DarcyMPFA_init]>
      (<["flux_disc" := fn_DarcyMPFA_flux_disc]> ∅).
Proof. reflexivity. Qed.

(** [solve()] on any object that inherits it: the solution is the one for
    the stored grid and data and for whatever discretization
    [flux_disc()] answers on that object. *)
Lemma solve_uses_flux_disc (c : ClassName) (attrs : gmap string Value)
    (gb data disc : Value) :
  class_getattr c "solve" = Some fn_Elliptic_solve →
  attrs !! "_gb" = Some gb →
  attrs !! "_data" = Some data →
  call 999 (mkInstance c attrs) "flux_disc" []
    = Ok (disc, mkInstance c attrs) →
  invoke (mkInstance c attrs) "solve" []
    = Ok (VLib "Elliptic.solve" [gb; data; disc], mkInstance c attrs).
Proof.
  intros Hs Hgb Hdata Hdisc.
  rewrite (invoke_resolved _ _ _ fn_Elliptic_solve) by exact Hs.
  cbn [exec]. unfold Elliptic.solve, getattr.
  rewrite Hdisc. simpl. rewrite Hgb. simpl. rewrite Hdata. reflexivity.
Qed.

(** A name written with two leading underscores. *)
Lemma dunder_or_not (name : string) :
  String.prefix "__" name = true ∨ String.prefix "__" name = false.
Proof. destruct (String.prefix "__" name); [by left | by right]. Qed.

(** C5. The flux discretization is the driver's choice, made by
    [flux_disc()].  For every grid bucket [gb]: on the base class
    [Elliptic] it answers the two-point scheme and [solve()] is the
    solution for [gb] with that scheme; on [DarcyMPFA(gb)] it answers
    [mpfa.MpfaMixDim], a multi-point scheme, and [solve()] is the
    solution for the same [gb] and data with that scheme.  Nothing else
    differs: building [DarcyMPFA(gb)] runs [Elliptic.__init__] on the
    fresh object with the same argument, as building [Elliptic(gb)] does,
    and for every name that does not begin with two underscores, other
    than [flux_disc], a method call on a [DarcyMPFA] object reaches the
    function it reaches on an [Elliptic] object. *)
Theorem DarcyMPFA_differs_in_flux_disc_only
    (gb : list (Grid * gmap string Value)) :
  method_result Elliptic [VBucket gb] "flux_disc" = Ok (VDisc Tpfa)
  ∧ scheme Tpfa = TwoPoint
  ∧ method_result DarcyMPFA [VBucket gb] "flux_disc" = Ok (VDisc MpfaMixDim)
  ∧ scheme MpfaMixDim = MultiPoint
  ∧ method_result Elliptic [VBucket gb] "solve"
      = Ok (VLib "Elliptic.solve" [VBucket gb; VNone; VDisc Tpfa])
  ∧ method_result DarcyMPFA [VBucket gb] "solve"
      = Ok (VLib "Elliptic.solve" [VBucket gb; VNone; VDisc MpfaMixDim])
  ∧ construct DarcyMPFA [VBucket gb]
      = construct_with Elliptic.__init__ DarcyMPFA [VBucket gb]
  ∧ construct Elliptic [VBucket gb]
      = construct_with Elliptic.__init__ Elliptic [VBucket gb]
  ∧ ∀ name : string,
      String.prefix "__" name = true ∨ name = "flux_disc"
      ∨ class_getattr DarcyMPFA name = class_getattr Elliptic name.
Proof.
  assert (Hc : ∀ c, c = Elliptic ∨ c = DarcyMPFA →
            construct c [VBucket gb]
              = Ok (mkInstance c
                      (<["_data" := VNone]> (<["_gb" := VBucket gb]> ∅))))
    by (intros c [-> | ->]; reflexivity).
  assert (Hsolve : ∀ c disc,
            c = Elliptic ∨ c = DarcyMPFA →
            call 999 (mkInstance c
                        (<["_data" := VNone]> (<["_gb" := VBucket gb]> ∅)))
                 "flux_disc" []
              = Ok (VDisc disc,
                    mkInstance c
                      (<["_data" := VNone]> (<["_gb" := VBucket gb]> ∅))) →
            method_result c [VBucket gb] "solve"
              = Ok (VLib "Elliptic.solve" [VBucket gb; VNone; VDisc disc])).
  { intros c disc Hcls Hdisc. unfold method_result.
    rewrite (Hc c Hcls). simpl.
    rewrite (solve_uses_flux_disc c _ (VBucket gb) VNone (VDisc disc));
      [reflexivity| |reflexivity|reflexivity|exact Hdisc].
    destruct Hcls as [-> | ->]; reflexivity. }
  split; [reflexivity|]. split; [reflexivity|].
  split; [reflexivity|]. split; [reflexivity|].
  split; [apply Hsolve; [by left|reflexivity]|].
  split; [apply Hsolve; [by right|reflexivity]|].
  split; [reflexivity|]. split; [reflexivity|].
  intros name.
  destruct (dunder_or_not name) as [Hd|Hd]; [by left|].
  destruct (decide (name = "flux_disc")) as [->|Hf]; [right; by left|].
  assert (Hi : name ≠ "__init__") by (intros ->; discriminate Hd).
  right; right.
  rewrite class_getattr_DarcyMPFA, class_dict_DarcyMPFA.
  rewrite lookup_insert_ne by congruence.
  rewrite lookup_insert_ne by congruence.
  by rewrite lookup_empty.
Qed.

(** ** Assigning the problem classes *)

(** The loop body of [assign_darcy_data] does not raise: the node keeps
    its grid and gets a [MatrixDomain] when the grid is two-dimensional,
    a [FractureDomain] otherwise. *)
Lemma assign_node_problem (g : Grid) (d : gmap string Value) :
  assign_node (g, d) =
    Ok (g, <["problem" :=
               VObj (if bool_decide (dim g = 2%nat)
                     then MatrixDomain else FractureDomain)
                    (data_attrs (VGrid g) (VDict d))]> d).
Proof.
  unfold assign_node. case_bool_decide.
  - rewrite construct_data by (by left). reflexivity.
  - rewrite construct_data by (by right). reflexivity.
Qed.

Lemma for_nodes_total (nodes : list (Grid * gmap string Value)) :
  ∃ nodes', for_nodes nodes = Ok nodes'
            ∧ map fst nodes' = map fst nodes.
Proof.
  induction nodes as [|[g d] nodes (nodes' & IH & Hg)].
  - by exists [].
  - eexists. cbn [for_nodes]. rewrite assign_node_problem, IH.
    split; [reflexivity|]. simpl. by rewrite Hg.
Qed.

Lemma assign_darcy_data_total (gb : list (Grid * gmap string Value)) :
  ∃ gb', assign_darcy_data gb = Ok gb' ∧ map fst gb' = map fst gb.
Proof.
  unfold assign_darcy_data.
  destruct (for_nodes_total (add_node_props ["problem"] gb))
    as (gb' & H & Hg).
  exists gb'. split; [exact H|]. rewrite Hg.
  unfold add_node_props. rewrite map_map. reflexivity.
Qed.

(** ** The parameter container *)

(** [set_source] touches the source map only. *)
Lemma set_source_frame (physics label : string) (s : ndarray)
    (p : Parameters) :
  get_bc label (set_source physics s p) = get_bc label p
  ∧ get_tensor label (set_source physics s p) = get_tensor label p
  ∧ get_aperture label (set_source physics s p) = get_aperture label p.
Proof. repeat split. Qed.

Lemma get_bc_set_bc (physics : string) (b : BoundaryCondition)
    (p : Parameters) :
  get_bc physics (set_bc physics b p) = Some b.
Proof. unfold get_bc, set_bc. simpl. apply lookup_insert_eq. Qed.

Lemma get_source_set_source (physics : string) (s : ndarray)
    (p : Parameters) :
  get_source physics (set_source physics s p) = Some s.
Proof. unfold get_source, set_source. simpl. apply lookup_insert_eq. Qed.

(** ** The single-grid example *)

(** The write [src[60] = 1] on [np.zeros(n)] raises exactly when there
    are fewer than 61 cells. *)
Lemma unit_source_write (n : nat) :
  setitem (np_zeros n) 60 1%float =
    if bool_decide (61 ≤ n)%nat
    then Ok (<[60%nat := 1%float]> (np_zeros n))
    else Raise IndexError.
Proof.
  unfold setitem. rewrite length_np_zeros.
  case_bool_decide as Hn.
  - rewrite bool_decide_eq_true_2 by lia. reflexivity.
  - rewrite bool_decide_eq_false_2 by lia.
    by rewrite bool_decide_eq_false_2 by lia.
Qed.

Section SingleGridFacts.

Variable cart_face_tags : list Z → list (list FaceTag).

Lemma the_grid_num_cells :
  num_cells (the_grid cart_face_tags) = 121%nat.
Proof. reflexivity. Qed.

Lemma single_grid_runs :
  single_grid cart_face_tags [] =
    Ok (the_grid cart_face_tags, the_namespace cart_face_tags,
        the_pressure cart_face_tags, the_log).
Proof. reflexivity. Qed.

(** C3. The parameter container is keyed by the physics label: after
    [set_bc(physics, b)] and then [set_source(physics, s)] the boundary
    condition under that label is still [b] and the source under it is
    [s]; [set_source] changes the boundary condition under no label.  In
    the tutorial, after cell 3, [param] holds [bc_cond] and [src] under
    ['flow']. *)
Theorem set_source_keeps_bc
    (p0 : Parameters) (physics : string) (b : BoundaryCondition)
    (s : ndarray) :
  get_bc physics (set_source physics s (set_bc physics b p0)) = Some b
  ∧ get_source physics (set_source physics s (set_bc physics b p0)) = Some s
  ∧ (∀ label : string,
       get_bc label (set_source physics s (set_bc physics b p0))
         = get_bc label (set_bc physics b p0))
  ∧ ∃ g ns p log,
      single_grid cart_face_tags [] = Ok (g, ns, p, log)
      ∧ get_bc "flow" (param ns) = Some (bc_cond ns)
      ∧ get_source "flow" (param ns) = Some (src ns).
Proof.
  split; [|split; [|split]].
  - destruct (set_source_frame physics physics s (set_bc physics b p0))
      as [-> _]. apply get_bc_set_bc.
  - apply get_source_set_source.
  - intros label. apply set_source_frame.
  - eexists _, _, _, _. split; [apply single_grid_runs|].
    split; simpl; unfold the_param.
    + destruct (set_source_frame "flow" "flow" the_src
        (set_bc "flow" (the_bc_cond cart_face_tags)
           (Parameters_new (the_grid cart_face_tags)))) as [-> _].
      apply get_bc_set_bc.
    + apply get_source_set_source.
Qed.

(** C10. In the single-grid example the array write is in bounds:
    [CartGrid([11, 11])] has 121 cells, [np.zeros(g.num_cells)] has
    length 121, index 60 lies in [0, 121), so [src[60] = 1] does not
    raise and leaves a single 1 with sixty zeros on either side. *)
Theorem unit_source_write_in_bounds :
  num_cells (compute_geometry (CartGrid cart_face_tags [11; 11])) = 121%nat
  ∧ length (np_zeros
      (num_cells (compute_geometry (CartGrid cart_face_tags [11; 11]))))
    = 121%nat
  ∧ 0 ≤ 60 < Z.of_nat (length (np_zeros
      (num_cells (compute_geometry (CartGrid cart_face_tags [11; 11])))))
  ∧ setitem (np_zeros
      (num_cells (compute_geometry (CartGrid cart_face_tags [11; 11]))))
      60 1%float
    = Ok (replicate 60 0%float ++ 1%float :: replicate 60 0%float)%list
  ∧ ∃ g ns p log,
      single_grid cart_face_tags [] = Ok (g, ns, p, log)
      ∧ src ns = (replicate 60 0%float ++ 1%float :: replicate 60 0%float)%list
      ∧ length (src ns) = num_cells g
      ∧ src ns !! 60%nat = Some 1%float.
Proof.
  split; [reflexivity|]. split; [reflexivity|].
  split; [by vm_compute|].
  split; [by rewrite unit_source_write|].
  eexists _, _, _, _. split; [apply single_grid_runs|].
  repeat split.
Qed.

End SingleGridFacts.

(** * Further properties of the notebook's code *)

(** ** The fracture permeability *)

(** [permeability()] on any [FractureDomain] object whose grid is [g]. *)
Lemma permeability_of_object (attrs : gmap string Value) (g : Grid) :
  attrs !! "_g" = Some (VGrid g) →
  invoke (mkInstance FractureDomain attrs) "permeability" []
    = Ok (VTensor (mkSecondOrder 2 (replicate (num_cells g) 100%float)),
          mkInstance FractureDomain attrs).
Proof.
  intros Hg.
  rewrite (invoke_resolved _ _ _ fn_FractureDomain_permeability)
    by reflexivity.
  cbn [exec]. unfold FractureDomain.permeability.
  rewrite (call_grid _ _ _ (VGrid g)); [|right; by right|exact Hg].
  simpl. by rewrite scalar_mul_ones.
Qed.

(** X1. For every grid [g], [FractureDomain(g, d).permeability()] is a
    second-order tensor built with dimension 2, whatever the dimension
    of [g], from one value 100 per cell of [g]. *)
Theorem fracture_permeability_is_hundred_per_cell (g : Grid) (d : Value) :
  method_result FractureDomain [VGrid g; d] "permeability"
    = Ok (VTensor (mkSecondOrder 2 (replicate (num_cells g) 100%float)))
  ∧ length (replicate (num_cells g) 100%float) = num_cells g.
Proof.
  split; [|apply length_replicate].
  unfold method_result.
  rewrite construct_data by (by right). simpl.
  by rewrite (permeability_of_object _ g) by apply data_attrs_g.
Qed.

(** ** [assign_darcy_data] on a whole bucket *)

(** What the loop leaves in the dictionary of a node [(g, d)]. *)
Lemma for_nodes_eq (nodes : list (Grid * gmap string Value)) :
  for_nodes nodes =
    Ok (map (fun n =>
               (n.1, <["problem" :=
                         VObj (problem_class n.1)
                              (data_attrs (VGrid n.1) (VDict n.2))]> n.2))
            nodes).
Proof.
  induction nodes as [|[g d] nodes IH]; [reflexivity|].
  cbn [for_nodes]. rewrite assign_node_problem, IH. reflexivity.
Qed.

Lemma add_node_props_problem (gb : list (Grid * gmap string Value)) :
  add_node_props ["problem"] gb
    = map (fun n => (n.1, <["problem" := VNone]> n.2)) gb.
Proof. reflexivity. Qed.

Lemma assign_darcy_data_eq (gb : list (Grid * gmap string Value)) :
  assign_darcy_data gb =
    Ok (map (fun n =>
               (n.1, <["problem" :=
                         VObj (problem_class n.1)
                              (data_attrs (VGrid n.1)
                                 (VDict (<["problem" := VNone]> n.2)))]>
                       (<["problem" := VNone]> n.2)))
            gb).
Proof.
  unfold assign_darcy_data.
  rewrite for_nodes_eq, add_node_props_problem, map_map. reflexivity.
Qed.



(** X3. After [assign_darcy_data], the problem object of every node
    answers [bc()] with a boundary condition on that node's own grid whose
    Dirichlet faces are exactly the faces of that grid tagged
    [DOMAIN_BOUNDARY], for matrix and fracture nodes alike. *)
Theorem assigned_problems_are_dirichlet_on_domain_boundary
    (gb : list (Grid * gmap string Value)) :
  ∃ gb',
    assign_darcy_data gb = Ok gb'
    ∧ Forall
        (fun n' =>
           ∃ c attrs b,
             n'.2 !! "problem" = Some (VObj c attrs)
             ∧ invoke (mkInstance c attrs) "bc" []
                 = Ok (VBC b, mkInstance c attrs)
             ∧ cond_grid b = n'.1
             ∧ ∀ i : nat,
                 is_dir b i = true
                 ↔ has_face_tag n'.1 DOMAIN_BOUNDARY !! i = Some true)
        gb'.
Proof.
  eexists. split; [apply assign_darcy_data_eq|].
  induction gb as [|[g d] gb IH]; simpl; constructor; [|exact IH].
  simpl. eexists _, _, (dirichlet_on_domain_boundary g).
  split; [apply lookup_insert_eq|].
  split; [|split; [reflexivity|apply dirichlet_on_domain_boundary_spec]].
  apply bc_of_object; [|apply data_attrs_g].
  unfold problem_class. case_bool_decide; [by left|by right].
Qed.

(** X4. After [assign_darcy_data], every node whose grid is not
    two-dimensional carries a [FractureDomain] object that answers
    [aperture()] with 0.01 per cell of that grid and [permeability()]
    with 100 per cell, and, when the grid has a cell, [source()] with 1
    per cell. *)
Theorem assigned_fractures_get_fracture_parameters
    (gb : list (Grid * gmap string Value)) :
  ∃ gb',
    assign_darcy_data gb = Ok gb'
    ∧ Forall
        (fun n' =>
           dim n'.1 = 2%nat
           ∨ ∃ attrs,
               n'.2 !! "problem" = Some (VObj FractureDomain attrs)
               ∧ invoke (mkInstance FractureDomain attrs) "aperture" []
                   = Ok (VArray (replicate (num_cells n'.1) 0.01%float),
                         mkInstance FractureDomain attrs)
               ∧ invoke (mkInstance FractureDomain attrs) "permeability" []
                   = Ok (VTensor (mkSecondOrder 2
                            (replicate (num_cells n'.1) 100%float)),
                         mkInstance FractureDomain attrs)
               ∧ (num_cells n'.1 = 0%nat
                  ∨ invoke (mkInstance FractureDomain attrs) "source" []
                      = Ok (VArray (replicate (num_cells n'.1) 1%float),
                            mkInstance FractureDomain attrs)))
        gb'.
Proof.
  eexists. split; [apply assign_darcy_data_eq|].
  induction gb as [|[g d] gb IH]; simpl; constructor; [|exact IH].
  simpl. unfold problem_class. case_bool_decide as Hd; [by left|].
  right. eexists. split; [apply lookup_insert_eq|].
  split; [apply aperture_of_object, data_attrs_g|].
  split; [apply permeability_of_object, data_attrs_g|].
  destruct (num_cells g) as [|n] eqn:Hn; [by left|right].
  rewrite (source_of_object _ g) by apply data_attrs_g.
  rewrite Hn, source_write_is_identity by lia. reflexivity.
Qed.

(** ** The arguments [bc] hands to the library *)

Lemma ravel_argwhere_cons (k : nat) (b : bool) (mask : list bool) :
  np_ravel (argwhere_from k (b :: mask))
    = ((if b then [k] else []) ++ np_ravel (argwhere_from (S k) mask))%list.
Proof. unfold np_ravel. simpl. rewrite concat_app. by destruct b. Qed.

Lemma ravel_argwhere_nil (k : nat) : np_ravel (argwhere_from k []) = [].
Proof. reflexivity. Qed.

(** The positions come out in increasing order, within the mask. *)
Lemma ravel_argwhere_sorted (k : nat) (mask : list bool) :
  StronglySorted lt (np_ravel (argwhere_from k mask))
  ∧ Forall (fun i => k ≤ i < k + length mask)%nat
      (np_ravel (argwhere_from k mask)).
Proof.
  revert k. induction mask as [|b mask IH]; intros k.
  - rewrite ravel_argwhere_nil. split; constructor.
  - rewrite ravel_argwhere_cons.
    destruct (IH (S k)) as [Hs Hb].
    assert (Hb' : Forall (fun i => k ≤ i < k + length (b :: mask))%nat
                    (np_ravel (argwhere_from (S k) mask))).
    { eapply Forall_impl; [exact Hb|]. simpl. intros i Hi. lia. }
    destruct b; simpl.
    + split.
      * constructor; [exact Hs|].
        eapply Forall_impl; [exact Hb|]. simpl. intros i Hi. lia.
      * constructor; [lia | exact Hb'].
    + split; [exact Hs | exact Hb'].
Qed.

(** One position per true entry. *)
Lemma ravel_argwhere_length (k : nat) (mask : list bool) :
  length (np_ravel (argwhere_from k mask))
    = length (filter (fun b => b = true) mask).
Proof.
  revert k. induction mask as [|b mask IH]; intros k; [reflexivity|].
  rewrite ravel_argwhere_cons, length_app, IH, filter_cons.
  destruct b.
  - rewrite decide_True by reflexivity. reflexivity.
  - rewrite decide_False by discriminate. reflexivity.
Qed.

(** The mask has as many true entries as there are tagged faces. *)
Lemma tagged_mask_length (g : Grid) (t : FaceTag) :
  length (filter (fun b => b = true) (has_face_tag g t))
    = length (filter (fun ts => t ∈ ts) (face_tags g)).
Proof.
  unfold has_face_tag.
  induction (face_tags g) as [|ts l IH]; [reflexivity|].
  cbn [map]. rewrite !filter_cons.
  destruct (decide (t ∈ ts)) as [Hin|Hin].
  - rewrite decide_True by (by apply bool_decide_eq_true_2).
    simpl. by rewrite IH.
  - rewrite decide_False
      by (rewrite bool_decide_eq_false_2 by exact Hin; discriminate).
    exact IH.
Qed.

(** X5. For every grid [g], the boundary condition that [bc()] of
    [MatrixDomain] and of [FractureDomain] builds gets consistent
    arguments: as many labels as faces, every label ['dir'], the faces in
    strictly increasing order (so none twice), each a face index of [g],
    and as many of them as [g] has faces tagged [DOMAIN_BOUNDARY]; with no
    such face the lists are empty. *)
Theorem bc_passes_each_boundary_face_once
    (g : Grid) (d : gmap string Value) :
  ∃ b,
    method_result MatrixDomain [VGrid g; VDict d] "bc" = Ok (VBC b)
    ∧ method_result FractureDomain [VGrid g; VDict d] "bc" = Ok (VBC b)
    ∧ length (cond_labels b) = length (cond_faces b)
    ∧ Forall (fun l => l = "dir") (cond_labels b)
    ∧ StronglySorted lt (cond_faces b)
    ∧ Forall (fun i => i < length (face_tags g))%nat (cond_faces b)
    ∧ length (cond_faces b)
        = length (filter (fun ts => DOMAIN_BOUNDARY ∈ ts) (face_tags g)).
Proof.
  exists (dirichlet_on_domain_boundary g).
  split; [apply bc_of_data_class; by left|].
  split; [apply bc_of_data_class; by right|].
  unfold dirichlet_on_domain_boundary, list_repeat_str, np_argwhere. simpl.
  destruct (ravel_argwhere_sorted 0 (has_face_tag g DOMAIN_BOUNDARY))
    as [Hs Hb].
  split; [apply length_replicate|].
  split; [apply Forall_replicate; reflexivity|].
  split; [exact Hs|].
  split.
  - eapply Forall_impl; [exact Hb|]. simpl. intros i Hi.
    unfold has_face_tag in Hi. rewrite length_map in Hi. lia.
  - rewrite ravel_argwhere_length. apply tagged_mask_length.
Qed.

(** ** Cell 3 on any grid *)

(** Cell 3 run on a grid [g] from a call log [log]. *)
Lemma cell_3_eq (g : Grid) (log : list Call) :
  cell_3 g log =
    if bool_decide (61 ≤ num_cells g)%nat then
      let db := np_ravel (np_argwhere (has_face_tag g BOUNDARY)) in
      let b := mkBC g db (list_repeat_str "dir" (length db)) in
      let s := <[60%nat := 1%float]> (np_zeros (num_cells g)) in
      let p := set_source "flow" s (set_bc "flow" b (Parameters_new g)) in
      Ok (mkCell3 p db b s {["param" := VParameters p]},
          (log ++ [call_Parameters; call_has_face_tag BOUNDARY;
                   call_np_argwhere; call_np_ravel; call_BoundaryCondition;
                   call_np_zeros (num_cells g); call_set_bc "flow";
                   call_set_source "flow"])%list)
    else Raise IndexError.
Proof.
  unfold cell_3, bind_s, lib, lift, ret_s.
  rewrite unit_source_write.
  case_bool_decide; [|reflexivity].
  simpl. rewrite <- !app_assoc. reflexivity.
Qed.

(** X6. Cell 3 writes at the fixed index 60, so it depends on the size
    of the grid it is run on: on a grid with fewer than 61 cells it raises
    [IndexError]; on any other grid it finishes, [src] has one entry per
    cell, all zero except a 1 at index 60, and exactly its eight library
    calls are added to the log, in source order. *)
Theorem cell_3_needs_61_cells (g : Grid) (log : list Call) :
  if bool_decide (61 ≤ num_cells g)%nat then
    ∃ ns log',
      cell_3 g log = Ok (ns, log')
      ∧ length (src ns) = num_cells g
      ∧ src ns !! 60%nat = Some 1%float
      ∧ (∀ i : nat, i = 60%nat ∨ (num_cells g ≤ i)%nat
                    ∨ src ns !! i = Some 0%float)
      ∧ log' = (log ++ [call_Parameters; call_has_face_tag BOUNDARY;
                        call_np_argwhere; call_np_ravel;
                        call_BoundaryCondition;
                        call_np_zeros (num_cells g); call_set_bc "flow";
                        call_set_source "flow"])%list
  else cell_3 g log = Raise IndexError.
Proof.
  rewrite cell_3_eq. case_bool_decide as Hn; [|reflexivity].
  eexists _, _. split; [reflexivity|]. simpl.
  split; [by rewrite length_insert, length_np_zeros|].
  split; [apply list_lookup_insert_eq; rewrite length_np_zeros; lia|].
  split; [|reflexivity].
  intros i. destruct (decide (i = 60%nat)) as [->|Hi]; [by left|].
  destruct (decide (num_cells g ≤ i)%nat) as [Hge|Hlt]; [right; by left|].
  right; right. rewrite list_lookup_insert_ne by congruence.
  apply lookup_replicate_2. lia.
Qed.

(** X7. Whenever cell 3 finishes on a grid [g] (that is, unless [g] has
    fewer than 61 cells), the boundary condition it builds is on [g] and
    its Dirichlet faces are exactly the faces of [g] tagged [BOUNDARY];
    the parameter object holds that boundary condition and [src] under
    ['flow'], and [d] is the one-entry dictionary holding the parameter
    object under ['param']. *)
Theorem cell_3_is_dirichlet_on_boundary (g : Grid) (log : list Call) :
  (num_cells g < 61)%nat
  ∨ ∃ ns log',
      cell_3 g log = Ok (ns, log')
      ∧ cond_grid (bc_cond ns) = g
      ∧ (∀ i : nat, is_dir (bc_cond ns) i = true
                    ↔ has_face_tag g BOUNDARY !! i = Some true)
      ∧ get_bc "flow" (param ns) = Some (bc_cond ns)
      ∧ get_source "flow" (param ns) = Some (src ns)
      ∧ d ns = {["param" := VParameters (param ns)]}.
Proof.
  destruct (decide (num_cells g < 61)%nat) as [Hlt|Hge]; [by left|right].
  rewrite cell_3_eq, bool_decide_eq_true_2 by lia.
  eexists _, _. split; [reflexivity|]. simpl.
  split; [reflexivity|].
  split; [intros i; by rewrite is_dir_all_dir, elem_of_true_positions|].
  split; [|split; [apply get_source_set_source|reflexivity]].
  match goal with
  | |- get_bc _ (set_source ?l ?s ?p) = _ =>
      destruct (set_source_frame l "flow" s p) as [-> _]
  end.
  apply get_bc_set_bc.
Qed.

(** ** Constructors and overrides *)

(** X8. The constructors the notebook defines fix the number of
    arguments: [MatrixDomain] and [FractureDomain] raise [TypeError]
    unless called with exactly two arguments, [DarcyMPFA] unless called
    with exactly one.  So [DarcyMPFA(g, d)] raises [TypeError] for
    every [g] and [d], where [Elliptic(g, d)], as called in cell 4,
    builds the driver. *)
Theorem notebook_constructors_fix_arity (args : list Value) :
  (length args = 2%nat ∨ construct MatrixDomain args = Raise TypeError)
  ∧ (length args = 2%nat ∨ construct FractureDomain args = Raise TypeError)
  ∧ (length args = 1%nat ∨ construct DarcyMPFA args = Raise TypeError)
  ∧ ∀ g d : Value,
      construct DarcyMPFA [g; d] = Raise TypeError
      ∧ ∃ o, construct Elliptic [g; d] = Ok o.
Proof.
  split; [|split; [|split]].
  - destruct args as [|a [|b [|c args]]];
      (by left) || (right; reflexivity).
  - destruct args as [|a [|b [|c args]]];
      (by left) || (right; reflexivity).
  - destruct args as [|a [|b args]];
      (by left) || (right; reflexivity).
  - intros g d. split; [reflexivity|]. eexists. reflexivity.
Qed.

Lemma class_getattr_FractureDomain (name : string) :
  class_getattr FractureDomain name =
    match class_dict FractureDomain !! name with
    | Some f => Some f
    | None => class_getattr MatrixDomain name
    end.
Proof. reflexivity. Qed.

Lemma class_getattr_MatrixDomain (name : string) :
  class_getattr MatrixDomain name =
    match class_dict MatrixDomain !! name with
    | Some f => Some f
    | None => class_getattr EllipticData name
    end.
Proof. reflexivity. Qed.

Lemma class_dict_FractureDomain :
  class_dict FractureDomain =
    <["_FractureDomain__init" := fn_FractureDomain_init]>
      (<["permeability" := fn_FractureDomain_permeability]>
         (<["source" := fn_FractureDomain_source]>
            (<["aperture" := fn_FractureDomain_aperture]> ∅))).
Proof. reflexivity. Qed.

Lemma class_dict_MatrixDomain :
  class_dict MatrixDomain =
    <["__init__" := fn_MatrixDomain_init]>
      (<["bc" := fn_MatrixDomain_bc]> ∅).
Proof. reflexivity. Qed.

(** X9. [FractureDomain] overrides exactly the three parameter functions:
    for every name that does not begin with two underscores, other than
    [permeability], [source], [aperture] and the mangled private
    [_FractureDomain__init], a method call on a [FractureDomain] object
    reaches the function it reaches on a [MatrixDomain] object; the three
    parameter functions are its own, and [__init], as written in the
    source, is reached under that name by no call.  In the same way a
    [MatrixDomain] object differs from one of the library's data class in
    [bc] only (and in the constructor [__init__]). *)
Theorem FractureDomain_overrides_three_parameters (name : string) :
  (String.prefix "__" name = true
   ∨ name = "permeability" ∨ name = "source" ∨ name = "aperture"
   ∨ name = "_FractureDomain__init"
   ∨ class_getattr FractureDomain name = class_getattr MatrixDomain name)
  ∧ (String.prefix "__" name = true ∨ name = "bc"
     ∨ class_getattr MatrixDomain name = class_getattr EllipticData name)
  ∧ class_getattr FractureDomain "permeability"
      = Some fn_FractureDomain_permeability
  ∧ class_getattr FractureDomain "source" = Some fn_FractureDomain_source
  ∧ class_getattr FractureDomain "aperture" = Some fn_FractureDomain_aperture
  ∧ class_getattr FractureDomain "__init" = None
  ∧ class_getattr MatrixDomain "bc" = Some fn_MatrixDomain_bc
  ∧ class_getattr MatrixDomain "__init__" = Some fn_MatrixDomain_init.
Proof.
  split; [|split; [|repeat split]].
  - destruct (dunder_or_not name) as [Hd|Hd]; [by left|right].
    destruct (decide (name = "permeability")) as [->|H1]; [by left|].
    destruct (decide (name = "source")) as [->|H2]; [right; by left|].
    destruct (decide (name = "aperture")) as [->|H3];
      [right; right; by left|].
    destruct (decide (name = "_FractureDomain__init")) as [->|H4];
      [right; right; right; by left|].
    right; right; right; right.
    rewrite class_getattr_FractureDomain, class_dict_FractureDomain.
    rewrite !lookup_insert_ne by congruence.
    by rewrite lookup_empty.
  - destruct (dunder_or_not name) as [Hd|Hd]; [by left|right].
    destruct (decide (name = "bc")) as [->|H2]; [by left|].
    assert (Hi : name ≠ "__init__") by (intros ->; discriminate Hd).
    right.
    rewrite class_getattr_MatrixDomain, class_dict_MatrixDomain.
    rewrite !lookup_insert_ne by congruence.
    by rewrite lookup_empty.
Qed.
